(** * rtos_partition/template.c: the safety-partition skeleton

    The translation unit defines two functions, [SafetyTask] and [main].
    Both only call into the RTOS kernel and loop for ever, so each is
    embedded as an interaction tree over the kernel calls: a call of the
    C source is a visible event, the value the kernel returns is the
    answer to that event, and [for (;;)] and [while (1)] are
    [ITree.forever].  An execution is obtained by running a tree against
    a kernel for a bounded number of steps. *)

From Stdlib Require Import ZArith List String Lia.
From ITree Require Import ITree ITreeFacts.
From ITree Require Import Props.Leaf.
From Paco Require Import paco.
Import ListNotations.
Import ITreeNotations.
Local Open Scope itree_scope.
Local Open Scope Z_scope.
Local Open Scope string_scope.

Set Implicit Arguments.

(** ** C values that cross the kernel interface *)

(** [void *] arguments: the source only ever passes [NULL]. *)
Inductive pointer : Type :=
| NULL
| Addr (a : Z).

(** Function designators of the translation unit, as they are passed for
    [TaskFunction_t pxTaskCode]. *)
Inductive TaskFunction_t : Type :=
| SafetyTask_fn
| main_fn.

Definition BaseType_t := Z.
Definition UBaseType_t := Z.
Definition TickType_t := Z.

(** An item copied out of a queue: the raw bytes of a command message. *)
Definition message := list Z.

(** ** The calls a task can make

    The three calls of the source ([xTaskCreate], [vTaskStartScheduler],
    [vTaskDelay]) together with the primitives of the headers the file
    includes or that the comment in the loop alludes to: they never occur
    in the trees below, which is what several properties state. *)
Variant rtosE : Type -> Type :=
(* task.h *)
| xTaskCreate (pxTaskCode : TaskFunction_t) (pcName : string)
              (usStackDepth : Z) (pvParameters : pointer)
              (uxPriority : UBaseType_t) (pxCreatedTask : pointer)
  : rtosE BaseType_t
| vTaskStartScheduler : rtosE unit
| vTaskDelay (xTicksToDelay : TickType_t) : rtosE unit
| vTaskDelete (xTaskToDelete : pointer) : rtosE unit
| vTaskSuspendAll : rtosE unit
| xTaskResumeAll : rtosE BaseType_t
| xTaskNotifyGive (xTaskToNotify : pointer) : rtosE BaseType_t
| ulTaskNotifyTake (xClearCountOnExit : BaseType_t) (xTicksToWait : TickType_t)
  : rtosE Z
(* queue.h, semphr.h *)
| xQueueReceive (xQueue : pointer) (xTicksToWait : TickType_t)
  : rtosE (option message)
| xQueueSend (xQueue : pointer) (pvItemToQueue : message)
             (xTicksToWait : TickType_t)
  : rtosE BaseType_t
| xSemaphoreTake (xSemaphore : pointer) (xTicksToWait : TickType_t)
  : rtosE BaseType_t
| xSemaphoreGive (xSemaphore : pointer) : rtosE BaseType_t
(* stdio.h *)
| printf (format : string) : rtosE Z.

(** ** Executions *)

(** A call without the type of its answer. *)
Definition call : Type := { T : Type & rtosE T }.

Definition Call {T : Type} (e : rtosE T) : call := existT _ T e.

(** A call together with the value the kernel answered. *)
Record interaction : Type := Interaction {
  answer_type : Type;
  the_call : rtosE answer_type;
  the_answer : answer_type
}.

Definition call_of (i : interaction) : call := Call (the_call i).

(** A kernel answers every call from its current state. *)
Record kernel : Type := Kernel {
  kstate : Type;
  respond : forall T : Type, rtosE T -> kstate -> T * kstate
}.

(** What is seen of an execution after finitely many steps: the calls made
    so far with their answers, in order, and the value returned if the
    function has returned. *)
Record execution (R : Type) : Type := Execution {
  events : list interaction;
  returned : option R
}.

Definition calls {R : Type} (x : execution R) : list call :=
  List.map call_of (events x).

Definition record_event {R : Type} (i : interaction) (x : execution R)
  : execution R :=
  {| events := i :: events x; returned := returned x |}.

(** [run K fuel s t]: at most [fuel] steps of [t] against kernel [K] started
    in state [s].  A call and a turn of a loop each take one step.  An
    execution in which some call never comes back shows the same events as
    the run that stops right after that call. *)
Fixpoint run {R : Type} (K : kernel) (fuel : nat) (s : kstate K)
         (t : itree rtosE R) : execution R :=
  match fuel with
  | O => {| events := []; returned := None |}
  | S fuel' =>
      match observe t with
      | RetF r => {| events := []; returned := Some r |}
      | TauF t' => run K fuel' s t'
      | VisF e k =>
          let (x, s') := respond K e s in
          record_event (Interaction e x) (run K fuel' s' (k x))
      end
  end.

(** ** Observations on executions *)

(** The kinds of primitive a call belongs to. *)
Inductive primitive_class : Type :=
| TaskCreation
| SchedulerStart
| Delay
| Cancellation
| Locking
| InterTask
| QueueOperation
| Output.

Definition class_of (c : call) : primitive_class :=
  match projT2 c with
  | xTaskCreate _ _ _ _ _ _ => TaskCreation
  | vTaskStartScheduler => SchedulerStart
  | vTaskDelay _ => Delay
  | vTaskDelete _ => Cancellation
  | vTaskSuspendAll | xTaskResumeAll => Locking
  | xSemaphoreTake _ _ | xSemaphoreGive _ => Locking
  | xTaskNotifyGive _ | ulTaskNotifyTake _ _ => InterTask
  | xQueueReceive _ _ | xQueueSend _ _ _ => QueueOperation
  | printf _ => Output
  end.

(** The classes the skeleton has no use of. *)
Definition absent_class (p : primitive_class) : bool :=
  match p with
  | QueueOperation | InterTask | Locking | Cancellation => true
  | TaskCreation | SchedulerStart | Delay | Output => false
  end.

Definition is_xQueueReceive (c : call) : bool :=
  match projT2 c with
  | xQueueReceive _ _ => true
  | _ => false
  end.

Definition is_xTaskCreate (c : call) : bool :=
  match projT2 c with
  | xTaskCreate _ _ _ _ _ _ => true
  | _ => false
  end.

(** The command messages a function obtained: the items the kernel handed
    over in answer to [xQueueReceive]. *)
Definition received_by (i : interaction) : list message :=
  match i with
  | Interaction (xQueueReceive _ _) (Some m) => [m]
  | Interaction _ _ => []
  end.

Definition received (evs : list interaction) : list message :=
  List.flat_map received_by evs.

(** The unsigned commands among those obtained, for a signature check
    [signed]; a function can accept no command it did not obtain. *)
Definition unsigned_received (signed : message -> bool)
           (evs : list interaction) : list message :=
  List.filter (fun m => negb (signed m)) (received evs).

(** The output stream after the events, from its content [out] before. *)
Definition written_by (c : call) : string :=
  match projT2 c with
  | printf format => format
  | _ => EmptyString
  end.

Definition stdout_after (out : string) (cs : list call) : string :=
  List.fold_left (fun o c => (o ++ written_by c)%string) cs out.

(** The ticks of delay a call asks for, and their sum over an execution. *)
Definition ticks_of (c : call) : Z :=
  match projT2 c with
  | vTaskDelay xTicksToDelay => xTicksToDelay
  | _ => 0
  end.

Definition ticks_requested (cs : list call) : Z :=
  List.fold_right (fun c total => ticks_of c + total) 0 cs.

(** One kernel that answers [xTaskCreate] with [r] whatever else it does. *)
Definition answering_xTaskCreate (r : BaseType_t) (K : kernel) : kernel :=
  {| kstate := kstate K;
     respond := fun T (e : rtosE T) (s : kstate K) =>
       match e in rtosE T0 return (T0 * kstate K) -> T0 * kstate K with
       | xTaskCreate _ _ _ _ _ _ => fun a => (r, snd a)
       | _ => fun a => a
       end (respond K e s) |}.


(** What a kernel answers when nothing else is said: [pdPASS] where the
    call has a status, nothing to receive on a queue. *)
Definition default_answer {T : Type} (e : rtosE T) : T :=
  match e in rtosE T0 return T0 with
  | xTaskCreate _ _ _ _ _ _ => 1
  | vTaskStartScheduler => tt
  | vTaskDelay _ => tt
  | vTaskDelete _ => tt
  | vTaskSuspendAll => tt
  | xTaskResumeAll => 1
  | xTaskNotifyGive _ => 1
  | ulTaskNotifyTake _ _ => 0
  | xQueueReceive _ _ => None
  | xQueueSend _ _ _ => 1
  | xSemaphoreTake _ _ => 1
  | xSemaphoreGive _ => 1
  | printf _ => 0
  end.

(** A kernel holding one FIFO queue of command messages: [xQueueReceive]
    hands over the oldest one, [xQueueSend] appends. *)
Definition queue_kernel : kernel :=
  {| kstate := list message;
     respond := fun T (e : rtosE T) (q : list message) =>
       match e in rtosE T0 return T0 -> T0 * list message with
       | xQueueReceive _ _ =>
           fun _ => match q with
                    | [] => (None, [])
                    | m :: q' => (Some m, q')
                    end
       | xQueueSend _ m _ => fun d => (d, (q ++ [m])%list)
       | _ => fun d => (d, q)
       end (default_answer e) |}.

(** A function serves the queue of [queue_kernel] when the command [m]
    pending in it is obtained in some execution. *)
Definition serves_queue (t : itree rtosE unit) (m : message) : Prop :=
  exists n : nat, In m (received (events (run queue_kernel n [m] t))).

(** A port with one tick per millisecond. *)
Definition one_tick_per_ms (xTimeInMs : Z) : TickType_t := xTimeInMs.

(** ** The two functions of the source *)

Section Template.

(** [pdMS_TO_TICKS] is a macro of FreeRTOS.h, whose value depends on the
    configured tick rate; the header is not part of the repository. *)
Variable pdMS_TO_TICKS : Z -> TickType_t.

(** [void SafetyTask(void *pvParameters)]:
    [for (;;) { vTaskDelay(pdMS_TO_TICKS(1000)); }] *)
Definition SafetyTask (pvParameters : pointer) : itree rtosE unit :=
  ITree.forever (ITree.trigger (vTaskDelay (pdMS_TO_TICKS 1000))).

(** [int main(void)]: the value of [xTaskCreate] is dropped by [;;]. *)
Definition main : itree rtosE Z :=
  ITree.trigger (xTaskCreate SafetyTask_fn "SafetyTask" 1024 NULL 5 NULL) ;;
  ITree.trigger vTaskStartScheduler ;;
  (ITree.forever (Ret tt) : itree rtosE unit) ;;
  Ret 0.

(** The one call of the loop body of [SafetyTask]. *)
Definition period_delay : rtosE unit := vTaskDelay (pdMS_TO_TICKS 1000).

(** The two calls of [main], and what follows them. *)
Definition create_SafetyTask : rtosE BaseType_t :=
  xTaskCreate SafetyTask_fn "SafetyTask" 1024 NULL 5 NULL.

Definition main_calls : list call :=
  [Call create_SafetyTask; Call vTaskStartScheduler].

(** The answers of a kernel to the two calls of [main]. *)
Definition created (K : kernel) (s : kstate K) : BaseType_t * kstate K :=
  respond K create_SafetyTask s.

Definition started (K : kernel) (s : kstate K) : unit * kstate K :=
  respond K vTaskStartScheduler (snd (created K s)).

(** [while (1) {} return 0;] *)
Definition main_idle : itree rtosE Z :=
  (ITree.forever (Ret tt) : itree rtosE unit) ;; Ret 0.

(** * Properties *)

(** Induction two steps at a time: a turn of the task loop takes two steps
    of [run]. *)
Lemma nat_ind2 (P : nat -> Prop) :
  P O -> P 1%nat -> (forall n, P n -> P (S (S n))) -> forall n, P n.
Proof.
  intros H0 H1 HS.
  assert (both : forall n, P n /\ P (S n)).
  { induction n as [|n [IHa IHb]]; split; auto. }
  intro n. apply both.
Qed.

(** ** Lists of calls *)

Lemma calls_repeat_all (c : call) (k : nat) (P : call -> Prop) :
  P c -> Forall P (repeat c k).
Proof.
  intros Hc. apply Forall_forall. intros x Hx.
  apply repeat_spec in Hx. now subst.
Qed.

Lemma firstn_two {A : Type} (a b : A) (n : nat) :
  firstn n [a; b] = [] \/ firstn n [a; b] = [a] \/ firstn n [a; b] = [a; b].
Proof.
  destruct n as [|[|n]]; cbn; auto.
  right; right. now rewrite firstn_nil.
Qed.

Lemma firstn_two_all {A : Type} (P : A -> Prop) (a b : A) (n : nat) :
  P a -> P b -> Forall P (firstn n [a; b]).
Proof.
  intros Ha Hb.
  destruct (firstn_two a b n) as [-> | [-> | ->]]; auto.
Qed.

Lemma received_none (evs : list interaction) :
  Forall (fun i => is_xQueueReceive (call_of i) = false) evs ->
  received evs = [].
Proof.
  induction 1 as [|[T e x] evs Hi _ IH]; [reflexivity|].
  unfold received in *. cbn [List.flat_map]. rewrite IH.
  destruct e; cbn in Hi; try discriminate; reflexivity.
Qed.

Lemma append_empty (out : string) : (out ++ EmptyString)%string = out.
Proof.
  induction out as [|a out IH]; cbn; [reflexivity | now rewrite IH].
Qed.

Lemma stdout_after_silent (cs : list call) :
  Forall (fun c => written_by c = EmptyString) cs ->
  forall out, stdout_after out cs = out.
Proof.
  induction 1 as [|c cs Hc _ IH]; intro out; [reflexivity|].
  unfold stdout_after in *. cbn [List.fold_left].
  rewrite Hc, IH. apply append_empty.
Qed.

Lemma Forall_calls_events {R : Type} (P : call -> Prop) (x : execution R) :
  Forall P (calls x) -> Forall (fun i => P (call_of i)) (events x).
Proof.
  unfold calls. intro H. apply (proj1 (Forall_map call_of P (events x))). exact H.
Qed.

(** ** The loop of [SafetyTask] *)

(** One turn of the loop: the delay, then the loop again. *)
Lemma SafetyTask_turn (pv : pointer) :
  SafetyTask pv ≅ Vis period_delay (fun _ => Tau (SafetyTask pv)).
Proof.
  unfold SafetyTask. rewrite unfold_forever at 1.
  rewrite bind_trigger. reflexivity.
Qed.

Lemma run_SafetyTask_turn (K : kernel) (pv : pointer) (n : nat) (s : kstate K) :
  run K (S (S n)) s (SafetyTask pv) =
  record_event
    (Interaction period_delay (fst (respond K period_delay s)))
    (run K n (snd (respond K period_delay s)) (SafetyTask pv)).
Proof.
  cbn. unfold period_delay.
  destruct (respond K (vTaskDelay (pdMS_TO_TICKS 1000)) s). reflexivity.
Qed.

Lemma run_SafetyTask_once (K : kernel) (pv : pointer) (s : kstate K) :
  run K 1 s (SafetyTask pv) =
  {| events := [Interaction period_delay (fst (respond K period_delay s))];
     returned := None |}.
Proof.
  cbn. unfold period_delay.
  destruct (respond K (vTaskDelay (pdMS_TO_TICKS 1000)) s). reflexivity.
Qed.

(** Every execution of [SafetyTask] is a row of period delays, one per turn
    begun, and has not returned. *)
Lemma SafetyTask_calls (K : kernel) (pv : pointer) (n : nat) :
  forall s : kstate K,
    calls (run K n s (SafetyTask pv)) =
    repeat (Call period_delay) (Nat.div2 (S n)).
Proof.
  induction n as [| |n IH] using nat_ind2; intro s.
  - reflexivity.
  - rewrite run_SafetyTask_once. reflexivity.
  - rewrite run_SafetyTask_turn. unfold calls in *.
    cbn [record_event events List.map]. rewrite IH. reflexivity.
Qed.

Lemma SafetyTask_running (K : kernel) (pv : pointer) (n : nat) :
  forall s : kstate K, returned (run K n s (SafetyTask pv)) = None.
Proof.
  induction n as [| |n IH] using nat_ind2; intro s.
  - reflexivity.
  - rewrite run_SafetyTask_once. reflexivity.
  - rewrite run_SafetyTask_turn. cbn [record_event returned]. apply IH.
Qed.

Lemma SafetyTask_all_calls (P : call -> Prop) (K : kernel) (pv : pointer)
      (n : nat) (s : kstate K) :
  P (Call period_delay) -> Forall P (calls (run K n s (SafetyTask pv))).
Proof.
  intro HP. rewrite SafetyTask_calls. now apply calls_repeat_all.
Qed.

(** No leaf of the tree: there is no path to a [return]. *)
Lemma SafetyTask_no_leaf (pv : pointer) (r : unit) : ~ Leaf r (SafetyTask pv).
Proof.
  enough (H : forall t, Leaf r t ->
                observe t = observe (SafetyTask pv) \/
                observe t = TauF (SafetyTask pv) -> False).
  { intro L. apply (H _ L). now left. }
  induction 1 as [t Ht | t u Ht _ IH | X e t k x Ht _ IH]; intros [Ho | Ho];
    rewrite Ht in Ho; cbn in Ho; try discriminate.
  - apply IH. left. now inversion Ho.
  - symmetry in Ho. inv_Vis. apply IH. right. reflexivity.
Qed.

(** ** The body of [main] *)

Lemma run_main_idle (K : kernel) (n : nat) :
  forall s : kstate K,
    run K n s main_idle = {| events := []; returned := None |}.
Proof.
  induction n as [|n IH]; intro s; [reflexivity|].
  cbn. exact (IH s).
Qed.

Lemma run_main_1 (K : kernel) (s : kstate K) :
  run K 1 s main =
  {| events := [Interaction create_SafetyTask (fst (created K s))];
     returned := None |}.
Proof.
  unfold created, create_SafetyTask. cbn.
  destruct (respond K _ s) as [r s1]. reflexivity.
Qed.

Lemma run_main_2 (K : kernel) (n : nat) (s : kstate K) :
  run K (S (S n)) s main =
  {| events := [Interaction create_SafetyTask (fst (created K s));
                Interaction vTaskStartScheduler (fst (started K s))];
     returned := None |}.
Proof.
  unfold started, created, create_SafetyTask. cbn.
  destruct (respond K _ s) as [r s1]. cbn.
  destruct (respond K _ s1) as [u s2]. cbn.
  destruct n as [|n]; [reflexivity|].
  cbn.
  exact (f_equal (fun x => record_event _ (record_event _ x))
                 (run_main_idle K n s2)).
Qed.

Lemma main_calls_run (K : kernel) (n : nat) (s : kstate K) :
  calls (run K n s main) = firstn n main_calls.
Proof.
  destruct n as [|[|n]].
  - reflexivity.
  - rewrite run_main_1. reflexivity.
  - rewrite run_main_2. cbn. now rewrite firstn_nil.
Qed.

Lemma main_running (K : kernel) (n : nat) (s : kstate K) :
  returned (run K n s main) = None.
Proof.
  destruct n as [|[|n]].
  - reflexivity.
  - rewrite run_main_1. reflexivity.
  - rewrite run_main_2. reflexivity.
Qed.

Lemma main_all_calls (P : call -> Prop) (K : kernel) (n : nat) (s : kstate K) :
  P (Call create_SafetyTask) -> P (Call vTaskStartScheduler) ->
  Forall P (calls (run K n s main)).
Proof.
  intros H1 H2. rewrite main_calls_run. now apply firstn_two_all.
Qed.

(** The tree of [main], call by call. *)
Lemma main_unfold :
  main ≅ Vis create_SafetyTask
           (fun _ => Vis vTaskStartScheduler (fun _ => main_idle)).
Proof.
  unfold main, create_SafetyTask, main_idle.
  rewrite bind_trigger. apply eqit_Vis. intros _.
  rewrite bind_trigger. reflexivity.
Qed.

Lemma main_idle_no_leaf (r : Z) : ~ Leaf r main_idle.
Proof.
  enough (H : forall t, Leaf r t -> observe t = TauF main_idle -> False).
  { intro L. apply (H _ L). reflexivity. }
  induction 1 as [t Ht | t u Ht _ IH | X e t k x Ht _ IH]; intros Ho;
    rewrite Ht in Ho; try discriminate.
  apply IH. inversion Ho. reflexivity.
Qed.

(** No leaf of the tree: [return 0] is on no path. *)
Lemma main_no_leaf (r : Z) : ~ Leaf r main.
Proof.
  rewrite main_unfold. intro L.
  apply Leaf_Vis_inv in L. destruct L as [_ L].
  apply Leaf_Vis_inv in L. destruct L as [_ L].
  exact (main_idle_no_leaf L).
Qed.

(** [SafetyTask] obtains no message from any queue. *)
Lemma SafetyTask_receives_nothing
      (K : kernel) (n : nat) (s : kstate K) (pv : pointer) :
  received (events (run K n s (SafetyTask pv))) = [].
Proof.
  apply received_none.
  apply (Forall_calls_events (P := fun c => is_xQueueReceive c = false)).
  now apply SafetyTask_all_calls.
Qed.

(** ** The claims *)

(** C1: in every execution of [SafetyTask] no unsigned command is accepted.
    Whatever the signature check, the task obtains no command at all, so the
    unsigned commands among those it obtained are none. *)
Theorem SafetyTask_accepts_no_unsigned_command
        (signed : message -> bool) (K : kernel) (n : nat) (s : kstate K)
        (pv : pointer) :
  received (events (run K n s (SafetyTask pv))) = [] /\
  unsigned_received signed (events (run K n s (SafetyTask pv))) = [].
Proof.
  split; [apply SafetyTask_receives_nothing|].
  unfold unsigned_received. now rewrite SafetyTask_receives_nothing.
Qed.

(** C2: [SafetyTask] is a loop without branches whose turn is the single
    delay call followed by the same loop again; it has no path to a return,
    no execution of it has returned, and two more steps of any execution
    add exactly one more turn. *)
Theorem SafetyTask_loops_forever (pv : pointer) :
  SafetyTask pv ≅ Vis period_delay (fun _ => Tau (SafetyTask pv)) /\
  (forall r : unit, ~ Leaf r (SafetyTask pv)) /\
  (forall (K : kernel) (n : nat) (s : kstate K),
      returned (run K n s (SafetyTask pv)) = None /\
      run K (S (S n)) s (SafetyTask pv) =
      record_event
        (Interaction period_delay (fst (respond K period_delay s)))
        (run K n (snd (respond K period_delay s)) (SafetyTask pv))).
Proof.
  split; [apply SafetyTask_turn|].
  split; [intro r; apply SafetyTask_no_leaf|].
  intros K n s. split; [apply SafetyTask_running | apply run_SafetyTask_turn].
Qed.

(** C3: in every execution of [SafetyTask] and of [main] no call is a queue
    operation, an inter-task communication, a lock or a cancellation.
    Validating a command or handling an error has no primitive of its own:
    it would show as calls that depend on what the kernel answered, and the
    calls made are the same against any two kernels. *)
Theorem no_absent_primitive_invoked
        (K K' : kernel) (n : nat) (s : kstate K) (s' : kstate K')
        (pv : pointer) :
  Forall (fun c => absent_class (class_of c) = false)
         (calls (run K n s (SafetyTask pv))) /\
  Forall (fun c => absent_class (class_of c) = false)
         (calls (run K n s main)) /\
  calls (run K n s (SafetyTask pv)) = calls (run K' n s' (SafetyTask pv)) /\
  calls (run K n s main) = calls (run K' n s' main).
Proof.
  split; [|split; [|split]].
  - now apply SafetyTask_all_calls.
  - now apply main_all_calls.
  - now rewrite !SafetyTask_calls.
  - now rewrite !main_calls_run.
Qed.

(** C4, as the code has it: [SafetyTask] is a placeholder for the command
    validator.  In every execution it obtains no message from any queue,
    writes no log line, and its calls are exactly
    [vTaskDelay(pdMS_TO_TICKS(1000))], once per turn begun: every call is
    that call, with that argument. *)
Theorem SafetyTask_is_placeholder
        (out : string) (K : kernel) (n : nat) (s : kstate K) (pv : pointer) :
  received (events (run K n s (SafetyTask pv))) = [] /\
  existsb is_xQueueReceive (calls (run K n s (SafetyTask pv))) = false /\
  stdout_after out (calls (run K n s (SafetyTask pv))) = out /\
  Forall (fun c => class_of c = Delay) (calls (run K n s (SafetyTask pv))) /\
  calls (run K n s (SafetyTask pv)) =
    repeat (Call (vTaskDelay (pdMS_TO_TICKS 1000))) (Nat.div2 (S n)) /\
  Forall (fun c => c = Call (vTaskDelay (pdMS_TO_TICKS 1000)))
         (calls (run K n s (SafetyTask pv))).
Proof.
  split; [|split; [|split; [|split; [|split]]]].
  - apply SafetyTask_receives_nothing.
  - rewrite SafetyTask_calls.
    induction (Nat.div2 (S n)) as [|k IH]; [reflexivity | exact IH].
  - apply stdout_after_silent, SafetyTask_all_calls. reflexivity.
  - now apply SafetyTask_all_calls.
  - apply SafetyTask_calls.
  - now apply SafetyTask_all_calls.
Qed.

(** C5: [main] creates exactly one task, with entry point [SafetyTask], name
    "SafetyTask", stack depth 1024, [NULL] parameter, priority 5 and no
    handle, and does so before it starts the scheduler: the calls of an
    execution of [n] steps are the first [n] of these two, and one of them
    at most creates a task. *)
Theorem main_creates_one_task (K : kernel) (n : nat) (s : kstate K) :
  calls (run K n s main) =
  firstn n [Call (xTaskCreate SafetyTask_fn "SafetyTask" 1024 NULL 5 NULL);
            Call vTaskStartScheduler] /\
  List.length (List.filter is_xTaskCreate (calls (run K n s main))) = Nat.min n 1.
Proof.
  rewrite main_calls_run. split; [reflexivity|].
  destruct n as [|[|n]]; cbn; try reflexivity.
  now rewrite firstn_nil.
Qed.

(** C6: every turn of the loop of [SafetyTask] delays for the same period:
    the calls of an execution are [vTaskDelay(pdMS_TO_TICKS(1000))] repeated,
    once per turn begun. *)
Theorem SafetyTask_delays_fixed_period
        (K : kernel) (n : nat) (s : kstate K) (pv : pointer) :
  calls (run K n s (SafetyTask pv)) =
  repeat (Call (vTaskDelay (pdMS_TO_TICKS 1000))) (Nat.div2 (S n)).
Proof.
  apply SafetyTask_calls.
Qed.

(** C7: [main] drops the value of [xTaskCreate].  Against a kernel that
    answers the creation with [r1] and one that answers it with [r2], [main]
    makes the same calls and is as far from returning, and its second call
    is [vTaskStartScheduler] in either case. *)
Theorem main_ignores_xTaskCreate_result
        (K : kernel) (r1 r2 : BaseType_t) (n : nat) (s : kstate K) :
  events (run (answering_xTaskCreate r1 K) 1 s main) =
    [Interaction create_SafetyTask r1] /\
  calls (run (answering_xTaskCreate r1 K) n s main) =
    calls (run (answering_xTaskCreate r2 K) n s main) /\
  returned (run (answering_xTaskCreate r1 K) n s main) =
    returned (run (answering_xTaskCreate r2 K) n s main) /\
  nth_error (calls (run (answering_xTaskCreate r1 K) (S (S n)) s main)) 1 =
    Some (Call vTaskStartScheduler).
Proof.
  split; [|split; [|split]].
  - rewrite (run_main_1 (answering_xTaskCreate r1 K) s). reflexivity.
  - now rewrite !main_calls_run.
  - now rewrite !main_running.
  - rewrite main_calls_run. reflexivity.
Qed.

(** C8: [SafetyTask] never reads [pvParameters]: for any two argument
    values it is the same tree and has the same executions. *)
Theorem SafetyTask_ignores_pvParameters
        (pv1 pv2 : pointer) (K : kernel) (n : nat) (s : kstate K) :
  SafetyTask pv1 = SafetyTask pv2 /\
  run K n s (SafetyTask pv1) = run K n s (SafetyTask pv2).
Proof.
  split; reflexivity.
Qed.

(** C9: [main] never returns.  Every kernel here lets [vTaskStartScheduler]
    come back, and still no execution of [main] has returned and [return 0]
    is on no path of its tree. *)
Theorem main_never_returns (K : kernel) (n : nat) (s : kstate K) :
  returned (run K n s main) = None /\
  (forall r : Z, ~ Leaf r main).
Proof.
  split; [apply main_running | intro r; apply main_no_leaf].
Qed.

(** C10: the program writes nothing: after any execution of [main] or of
    [SafetyTask] the output stream is what it was before. *)
Theorem program_writes_nothing
        (out : string) (K : kernel) (n : nat) (s : kstate K) (pv : pointer) :
  stdout_after out (calls (run K n s main)) = out /\
  stdout_after out (calls (run K n s (SafetyTask pv))) = out.
Proof.
  split; apply stdout_after_silent.
  - now apply main_all_calls.
  - now apply SafetyTask_all_calls.
Qed.

(** ** Further properties of the two loops *)

Lemma ticks_requested_repeat (c : call) (k : nat) :
  ticks_requested (repeat c k) = Z.of_nat k * ticks_of c.
Proof.
  induction k as [|k IH]; [reflexivity|].
  cbn [repeat ticks_requested List.fold_right].
  fold (ticks_requested (repeat c k)). rewrite IH. lia.
Qed.

(** [while (1) {} return 0;] is silent divergence. *)
Lemma main_idle_spin : main_idle ≅ ITree.spin.
Proof.
  unfold eq_itree, eqit. pcofix CIH.
  pstep. red. cbn. constructor. right. exact CIH.
Qed.

(** X1: [SafetyTask] never stalls.  After [k] turns of its loop it has called
    [vTaskDelay] exactly [k] times and has asked for [k] periods of
    [pdMS_TO_TICKS(1000)] ticks in all, whatever the kernel does. *)
Theorem SafetyTask_turns_and_ticks
        (K : kernel) (k : nat) (s : kstate K) (pv : pointer) :
  calls (run K (2 * k) s (SafetyTask pv)) = repeat (Call period_delay) k /\
  ticks_requested (calls (run K (2 * k) s (SafetyTask pv))) =
    Z.of_nat k * pdMS_TO_TICKS 1000.
Proof.
  rewrite SafetyTask_calls, Nat.div2_succ_double.
  split; [reflexivity|]. apply ticks_requested_repeat.
Qed.

(** X2: once [vTaskStartScheduler] has come back, [main] busy-waits: its
    tree is the two calls followed by silent divergence, and an execution
    of any length beyond two steps shows nothing more than the one of two
    steps: no further call, no delay, no return. *)
Theorem main_busy_waits :
  main ≅ Vis create_SafetyTask
           (fun _ => Vis vTaskStartScheduler (fun _ => ITree.spin)) /\
  (forall (K : kernel) (n : nat) (s : kstate K),
      run K (S (S n)) s main = run K 2 s main).
Proof.
  split.
  - rewrite main_unfold. apply eqit_Vis. intros _.
    apply eqit_Vis. intros _. apply main_idle_spin.
  - intros K n s. now rewrite !run_main_2.
Qed.

(** X3: [SafetyTask] learns nothing from the kernel.  [vTaskDelay] has no
    value, so the whole execution, answers included, is the same against
    any two kernels in any two states. *)
Theorem SafetyTask_observes_nothing
        (K K' : kernel) (n : nat) (pv : pointer) :
  forall (s : kstate K) (s' : kstate K'),
    run K n s (SafetyTask pv) = run K' n s' (SafetyTask pv).
Proof.
  induction n as [| |n IH] using nat_ind2; intros s s'.
  - reflexivity.
  - rewrite !run_SafetyTask_once.
    destruct (fst (respond K period_delay s)).
    destruct (fst (respond K' period_delay s')). reflexivity.
  - rewrite !run_SafetyTask_turn.
    destruct (fst (respond K period_delay s)).
    destruct (fst (respond K' period_delay s')).
    f_equal. apply IH.
Qed.

(** X4: the status of [xTaskCreate] is all that [main] gets to see of the
    kernel: two kernels that answer the creation alike give the same
    execution of [main], whatever their states and their other answers. *)
Theorem main_observes_creation_status_only
        (K K' : kernel) (n : nat) (s : kstate K) (s' : kstate K') :
  fst (created K s) = fst (created K' s') ->
  run K n s main = run K' n s' main.
Proof.
  intro same. destruct n as [|[|n]].
  - reflexivity.
  - rewrite !run_main_1. now rewrite same.
  - rewrite !run_main_2. rewrite same.
    destruct (fst (started K s)). destruct (fst (started K' s')).
    reflexivity.
Qed.

End Template.

(** ** Concrete executions *)

(** Five steps of the task on a port with one tick per millisecond: three
    turns begun, each a delay of 1000 ticks. *)
Example SafetyTask_five_steps :
  run queue_kernel 5 [[1; 2; 3]] (SafetyTask one_tick_per_ms NULL) =
  {| events := [Interaction (vTaskDelay 1000) tt;
                Interaction (vTaskDelay 1000) tt;
                Interaction (vTaskDelay 1000) tt];
     returned := None |}.
Proof. reflexivity. Qed.

(** Seven steps of [main]: the two calls, then the empty loop. *)
Example main_seven_steps :
  run queue_kernel 7 [] main =
  {| events := [Interaction create_SafetyTask 1;
                Interaction vTaskStartScheduler tt];
     returned := None |}.
Proof. reflexivity. Qed.

(** A failed creation changes nothing of what [main] does next. *)
Example main_after_failed_creation :
  run (answering_xTaskCreate (-1) queue_kernel) 7 [] main =
  {| events := [Interaction create_SafetyTask (-1);
                Interaction vTaskStartScheduler tt];
     returned := None |}.
Proof. reflexivity. Qed.

(** C4, as the spec has it, fails: with the command [[1; 2; 3]] pending in
    the queue, no execution of [SafetyTask] ever obtains it. *)
Lemma SafetyTask_serves_no_queue :
  ~ serves_queue (SafetyTask one_tick_per_ms NULL) [1; 2; 3].
Proof.
  intros [n Hin].
  rewrite SafetyTask_receives_nothing in Hin.
  exact Hin.
Qed.

(** The execution of [main] against the queue kernel, empty or not, and
    against the same kernel made to answer the creation with [pdPASS]. *)
Lemma main_observes_creation_status_only_witness :
  fst (created queue_kernel []) =
    fst (created (answering_xTaskCreate 1 queue_kernel) [[1; 2; 3]]) /\
  run queue_kernel 5 [] main =
    run (answering_xTaskCreate 1 queue_kernel) 5 [[1; 2; 3]] main.
Proof.
  split; [reflexivity|].
  apply (@main_observes_creation_status_only
           queue_kernel (answering_xTaskCreate 1 queue_kernel) 5
           [] [[1; 2; 3]]).
  reflexivity.
Defined.
